(** * bin_check: BIN country lookup and classification

    A shallow embedding of [bin.py]: the cached resolver
    [get_country_with_bin], the classifier [classify_country_by_alpha2]
    and the orchestrator [main], with the properties of the design
    document proved (or refuted) about them.

    The two collaborators of the program, the Redis server and the
    remote BIN service, are modelled by what the program can observe of
    them: a finite map from keys to byte strings with a time-to-live,
    and a function from requests to replies.  Every interaction is
    appended to a log, so that "no network request" and "no cache write"
    are statements about the log. *)

From Stdlib Require Import ZArith String Ascii List Lia Strings.Byte DecimalString DecimalZ.
From stdpp Require Import base option list gmap strings.

Local Open Scope string_scope.
Local Open Scope Z_scope.

(** ** Python values used by the program *)

(** [bytes]: what a Redis [GET] replies. *)
Definition bytes : Type := list byte.

(** Truthiness ([if s:]) of a [str]. *)
Definition str_truthy (s : string) : bool :=
  match s with EmptyString => false | String _ _ => true end.

(** The slice [s[:n]]: the first [n] characters, or all of [s] when it
    is shorter; a slice never raises. *)
Fixpoint slice_to (n : nat) (s : string) : string :=
  match n, s with
  | S n', String c s' => String c (slice_to n' s')
  | _, _ => EmptyString
  end.

(** [str(i)] of an [int], as an f-string interpolates it. *)
Definition str_of_int (i : Z) : string := NilZero.string_of_int (Z.to_int i).

(** The text codec between the program and the cache: the Redis client
    encodes a [str] value before it sends it, and [bytes.decode()] turns
    a reply back into text, raising [UnicodeDecodeError] ([None] here)
    on bytes that are not well-formed.  The library code is outside the
    repository, so the program is read over any codec. *)
Class Codec : Type := {
  str_encode : string -> bytes;
  bytes_decode : bytes -> option string
}.

(** What UTF-8 guarantees on text, for the two properties that read
    back what was written: decoding undoes encoding, and only the empty
    byte string decodes to the empty text. *)
Class CodecLaws `{Codec} : Prop := {
  decode_encode : forall s, bytes_decode (str_encode s) = Some s;
  decode_empty : bytes_decode [] = Some "";
  decode_nonempty : forall b, bytes_decode b = Some "" -> b = []
}.

(** Exceptions, by the classes the program distinguishes. *)
Inductive exn : Type :=
| ClientError (msg : string)      (* aiohttp.ClientError, with str(e) *)
| TimeoutError                    (* asyncio.TimeoutError *)
| AttributeError                  (* .get on a value that is no dict *)
| UnicodeDecodeError              (* bytes.decode() on malformed bytes *)
| OtherError (name : string).     (* any other, e.g. a JSON parse error *)

Inductive result (A : Type) : Type :=
| Returned (a : A)
| Raised (e : exn).
Arguments Returned {A} a.
Arguments Raised {A} e.

(** ** The remote BIN service *)

(** The part of a decoded JSON document that the resolver inspects: is
    it a list, is its first element an object, and what does a field of
    that object hold.  A field holds text or null: the service gives
    [iso_code2] as text, and the return type [str | None] of the
    resolver relies on it. *)
Inductive jvalue : Type :=
| JNull
| JStr (s : string).

Inductive element : Type :=
| Object (fields : gmap string jvalue)
| NotObject.

Inductive body : Type :=
| JsonList (items : list element)
| NotList.

Record request : Type := {
  req_url : string;
  req_headers : gmap string string;
  req_timeout : Z
}.

(** [status] is [response.status]; [json] is what [await response.json()]
    gives, which is only asked for on status 200 and may itself raise. *)
Record response : Type := {
  status : Z;
  json : result body
}.

(** What [session.get] does with a request: a response, or an exception
    before any response is there. *)
Inductive reply : Type :=
| Responded (r : response)
| Failed (e : exn).

(** ** The cache and the world *)

Record entry : Type := {
  value : bytes;
  ttl : option Z          (* seconds given with [ex=], if any *)
}.

Inductive event : Type :=
| EvConnect (redis_url : string)
| EvCacheGet (key : string)
| EvCacheSet (key : string) (val : string) (ex : Z)
| EvHttpGet (req : request)
| EvClose.

Record world : Type := {
  cache : gmap string entry;
  open_conns : nat;       (* cache clients acquired and not yet released *)
  log : list event
}.

Definition record (ev : event) (w : world) : world :=
  {| cache := cache w; open_conns := open_conns w; log := log w ++ [ev] |}.

(** ** Effects: state and exceptions *)

Definition M (A : Type) : Type := world -> result A * world.

Definition ret {A} (a : A) : M A := fun w => (Returned a, w).

Definition raise {A} (e : exn) : M A := fun w => (Raised e, w).

Definition bind {A B} (m : M A) (k : A -> M B) : M B :=
  fun w =>
    match m w with
    | (Returned a, w') => k a w'
    | (Raised e, w') => (Raised e, w')
    end.

(** [try: m except ...: handler]; a handler re-raises what it does not
    catch. *)
Definition try_except {A} (m : M A) (handler : exn -> M A) : M A :=
  fun w =>
    match m w with
    | (Returned a, w') => (Returned a, w')
    | (Raised e, w') => handler e w'
    end.

Notation "'let*' x ':=' m 'in' k" := (bind m (fun x => k))
  (at level 10, x name, m at level 100, k at level 200).

(** ** Constants of [bin.py] *)

Definition API_NINJAS_KEY : string := "IW5xn5sImzBjUxP2OPf1TUwuGRlSJMsEHFJv38En".
Definition REDIS_URL : string := "redis://localhost:6379".

Definition EU_COUNTRIES_ALPHA2 : gset string :=
  list_to_set
    [ "AT"; "BE"; "BG"; "HR"; "CY"; "CZ"; "DK"; "EE"; "FI"; "FR"; "DE"; "GR";
      "HU"; "IE"; "IT"; "LV"; "LT"; "LU"; "MT"; "NL"; "PL"; "PT"; "RO"; "SK";
      "SI"; "ES"; "SE"; "IS"; "LI"; "NO"; "CH" ].

Definition SERBIA_ALPHA2 : string := "RS".

(** [ex=30 * 24 * 60 * 60] *)
Definition CACHE_TTL : Z := 30 * 24 * 60 * 60.

(** ** The cache client

    The server is taken to be reachable: a [GET] or a [SET] answers and
    does not raise. *)

(** [redis.from_url(url)] *)
Definition redis_from_url (redis_url : string) : M unit :=
  fun w =>
    (Returned tt,
     {| cache := cache w; open_conns := S (open_conns w);
        log := log w ++ [EvConnect redis_url] |}).

(** [await redis_client.aclose()] *)
Definition redis_aclose : M unit :=
  fun w =>
    (Returned tt,
     {| cache := cache w; open_conns := pred (open_conns w);
        log := log w ++ [EvClose] |}).

(** [await redis_client.get(key)] *)
Definition redis_get (key : string) : M (option bytes) :=
  fun w => (Returned (value <$> cache w !! key), record (EvCacheGet key) w).

(** [await redis_client.set(key, val, ex=ex)] *)
Definition redis_set `{Codec} (key val : string) (ex : Z) : M unit :=
  fun w =>
    (Returned tt,
     {| cache := <[key := {| value := str_encode val; ttl := Some ex |}]> (cache w);
        open_conns := open_conns w;
        log := log w ++ [EvCacheSet key val ex] |}).

(** [cached.decode()] *)
Definition decode `{Codec} (b : bytes) : M string :=
  match bytes_decode b with
  | Some s => ret s
  | None => raise UnicodeDecodeError
  end.

(** ** The HTTP client *)

(** [await response.json()] *)
Definition response_json (r : response) : M body :=
  fun w => (json r, w).

(** [d.get(key)] on a JSON value: [None] for a missing key, and an
    [AttributeError] when the value is no dict. *)
Definition dict_get (d : element) (key : string) : M jvalue :=
  match d with
  | Object fields => ret (default JNull (fields !! key))
  | NotObject => raise AttributeError
  end.

(** ** The classifier *)

Definition classify_country_by_alpha2 (country_alpha2 : option string) : string :=
  match country_alpha2 with
  | None => "UNKNOWN"                                  (* not None *)
  | Some c =>
      if negb (str_truthy c) then "UNKNOWN"            (* not "" *)
      else if String.eqb c SERBIA_ALPHA2 then "RS"
      else if bool_decide (c ∈ EU_COUNTRIES_ALPHA2) then "EU"
      else "OTHER"
  end.

(** ** The resolver and the orchestrator *)

(** [number[:6]], [f"bin_country:{bin_number}"], the lookup URL and the
    request headers. *)
Definition bin_number (number : string) : string := slice_to 6 number.

Definition cache_key (number : string) : string :=
  "bin_country:" ++ bin_number number.

Definition url (number : string) : string :=
  "https://api.api-ninjas.com/v1/bin?bin=" ++ bin_number number.

Definition headers : gmap string string := {[ "X-Api-Key" := API_NINJAS_KEY ]}.

(** The dictionary [main] returns. *)
Record lookup : Type := {
  bin : string;
  country_alpha2 : option string;
  classification : string
}.

Section Program.
Context `{Codec}.

(** The remote service, as the answers it would give. *)
Variable remote : request -> reply.

(** [async with session.get(u, headers=h, timeout=t) as response] *)
Definition session_get (u : string) (h : gmap string string) (t : Z) : M response :=
  fun w =>
    let req := {| req_url := u; req_headers := h; req_timeout := t |} in
    (match remote req with
     | Responded r => Returned r
     | Failed e => Raised e
     end,
     record (EvHttpGet req) w).

Definition get_country_with_bin (number : string) : M (option string) :=
  let* cached := redis_get (cache_key number) in
  match cached with
  | Some ((_ :: _) as raw) =>                        (* if cached: *)
      let* text := decode raw in
      ret (Some text)
  | _ =>
      try_except
        (let* response := session_get (url number) headers 5 in
         if status response =? 200 then
           let* data := response_json response in
           match data with
           | JsonList (first :: _) =>
               let* country_code := dict_get first "iso_code2" in
               match country_code with
               | JStr code =>
                   if str_truthy code then
                     let* _ := redis_set (cache_key number) code CACHE_TTL in
                     ret (Some code)
                   else ret None                     (* falls through *)
               | JNull => ret None                   (* falls through *)
               end
           | _ => ret None                           (* falls through *)
           end
         else if status response =? 429 then
           ret (Some "RATE_LIMIT")
         else
           ret (Some ("HTTP_" ++ str_of_int (status response))))
        (fun e =>
           match e with
           | ClientError msg => ret (Some ("CLIENT_ERROR: " ++ msg))
           | TimeoutError => ret (Some "TIMEOUT")
           | _ => raise e
           end)
  end.

Definition main (number : string) : M lookup :=
  let* _ := redis_from_url REDIS_URL in
  let* alpha2 := get_country_with_bin number in
  let label := classify_country_by_alpha2 alpha2 in
  let* _ := redis_aclose in
  ret {| bin := number; country_alpha2 := alpha2; classification := label |}.
End Program.

(** ** Reading a run *)

(** The request the resolver sends for [number]. *)
Definition lookup_request (number : string) : request :=
  {| req_url := url number; req_headers := headers; req_timeout := 5 |}.

(** Does the cache hold a usable (non-empty) value for [number]? *)
Definition cache_hit (w : world) (number : string) : bool :=
  match value <$> cache w !! cache_key number with
  | Some (_ :: _) => true
  | _ => false
  end.

(** The world after the cache was asked about [number], and after the
    request for it went out. *)
Definition asked (number : string) (w : world) : world :=
  record (EvCacheGet (cache_key number)) w.

Definition requested (number : string) (w : world) : world :=
  record (EvHttpGet (lookup_request number)) (asked number w).

(** The world after [code] was stored for [number], after [main]
    acquired its client, and after it released it. *)
Definition stored `{Codec} (number code : string) (w : world) : world :=
  (redis_set (cache_key number) code CACHE_TTL w).2.

Definition connected (w : world) : world := (redis_from_url REDIS_URL w).2.

Definition released (w : world) : world := (redis_aclose w).2.

(** The events a run added to the log of the world it started in. *)
Definition events_since (w w' : world) : list event :=
  drop (length (log w)) (log w').

(** The requests sent and the cache writes made in a list of events. *)
Definition http_requests (evs : list event) : list request :=
  omap (fun ev => match ev with EvHttpGet req => Some req | _ => None end) evs.

Definition cache_writes (evs : list event) : list (string * string * Z) :=
  omap (fun ev => match ev with EvCacheSet k v ex => Some (k, v, ex) | _ => None end) evs.

(** The country code the remote service resolves for [number]: HTTP 200
    with a non-empty list whose first element has a truthy [iso_code2]. *)
Definition resolved_code (remote : request -> reply) (number : string) : option string :=
  match remote (lookup_request number) with
  | Responded r =>
      if status r =? 200 then
        match json r with
        | Returned (JsonList (Object fields :: _)) =>
            match fields !! "iso_code2" with
            | Some (JStr code) => if str_truthy code then Some code else None
            | _ => None
            end
        | _ => None
        end
      else None
  | Failed _ => None
  end.

(** The request for [number] ends in exception [e]: before a response
    is there, or while the body of a 200 response is read. *)
Definition request_raises (remote : request -> reply) (number : string) (e : exn) : Prop :=
  match remote (lookup_request number) with
  | Failed e' => e' = e
  | Responded r => status r = 200 /\ json r = Raised e
  end.

(** ** A running instance

    The codec that maps a character to one byte.  It agrees with UTF-8
    on ASCII text (digits, country codes, the sentinels), and gives the
    examples something to run on. *)
Definition latin1_codec : Codec := {|
  str_encode := list_byte_of_string;
  bytes_decode b := Some (string_of_list_byte b)
|}.

Definition empty_world : world := {| cache := ∅; open_conns := 0; log := [] |}.

(** A world whose cache already knows BIN 411111. *)
Definition warm_world : world :=
  {| cache := {[ "bin_country:411111" := {| value := list_byte_of_string "US"; ttl := Some CACHE_TTL |} ]};
     open_conns := 0; log := [] |}.

(** Remote services: one that knows every BIN to be [code], one that
    answers every request with [st] and no body, one that fails with
    [e], and one whose list holds something that is not an object. *)
Definition remote_code (code : string) : request -> reply :=
  fun _ => Responded {| status := 200;
                        json := Returned (JsonList [Object {[ "iso_code2" := JStr code ]}]) |}.

Definition remote_status (st : Z) : request -> reply :=
  fun _ => Responded {| status := st; json := Returned NotList |}.

Definition remote_failing (e : exn) : request -> reply :=
  fun _ => Failed e.

Definition remote_odd_list : request -> reply :=
  fun _ => Responded {| status := 200; json := Returned (JsonList [NotObject]) |}.

(** A service that knows no BIN (an empty list), and one whose 200
    response carries a body that is no JSON. *)
Definition remote_empty_list : request -> reply :=
  fun _ => Responded {| status := 200; json := Returned (JsonList []) |}.

Definition remote_bad_json : request -> reply :=
  fun _ => Responded {| status := 200; json := Raised (OtherError "JSONDecodeError") |}.

(** A world whose cache holds an empty value for BIN 411111, and an
    entry of another program. *)
Definition stale_world : world :=
  {| cache := {[ "bin_country:411111" := {| value := []; ttl := None |};
                 "session:42" := {| value := list_byte_of_string "alice"; ttl := None |} ]};
     open_conns := 0; log := [] |}.

(** A codec that decodes strictly: bytes below 0x80 decode to their
    characters, and a byte from 0x80 on is refused.  It is UTF-8 on the
    byte strings UTF-8 decodes to ASCII text, and it refuses, as UTF-8
    does, the bytes 0xFF and 0xFE, which no UTF-8 text contains. *)
Definition strict_decode (b : bytes) : option string :=
  if forallb (fun x => (Byte.to_N x <? 128)%N) b
  then Some (string_of_list_byte b)
  else None.

Definition strict_codec : Codec := {|
  str_encode := list_byte_of_string;
  bytes_decode := strict_decode
|}.

(** A world in which another program left bytes that are no text under
    the key of BIN 411111. *)
Definition garbled_world : world :=
  {| cache := {[ "bin_country:411111" := {| value := [xff; xfe]; ttl := None |} ]};
     open_conns := 0; log := [] |}.

(** * Properties *)

(** Unfolds the effectful operations, so that a run is a plain term. *)
Ltac unfold_run :=
  unfold try_except, bind, redis_get, redis_set, redis_from_url, redis_aclose,
    session_get, response_json, dict_get, decode, ret, raise in *.

(** Closes [ev ∉ l] for a list [l] of events that are all unlike [ev]. *)
Ltac not_in_events :=
  let Hin := fresh "Hin" in
  intros Hin;
  repeat (apply elem_of_cons in Hin as [Hin|Hin]; [discriminate|]);
  by apply elem_of_nil in Hin.

Lemma events_since_app w w' evs :
  log w' = (log w ++ evs)%list -> events_since w w' = evs.
Proof. unfold events_since. intros ->. apply drop_app_length. Qed.

Lemma slice_to_prefix n s : exists rest, s = slice_to n s ++ rest.
Proof.
  revert s. induction n as [|n IH]; intros s; [by exists s|].
  destruct s as [|c s]; [by exists ""|].
  destruct (IH s) as [rest Hr]. exists rest. cbn [slice_to].
  change (String c (slice_to n s) ++ rest) with (String c (slice_to n s ++ rest)).
  by rewrite <- Hr.
Qed.

Lemma slice_to_length n s :
  String.length (slice_to n s) = Nat.min n (String.length s).
Proof.
  revert s. induction n as [|n IH]; intros [|c s]; cbn; try done. by rewrite IH.
Qed.

Lemma slice_to_short n s : (String.length s <= n)%nat -> slice_to n s = s.
Proof.
  revert s. induction n as [|n IH]; intros [|c s]; cbn; try done; try lia.
  intros Hl. rewrite IH; [done|lia].
Qed.

Lemma slice_to_app n p s : String.length p = n -> slice_to n (p ++ s) = p.
Proof.
  revert p. induction n as [|n IH]; intros [|c p]; try done.
  intros [= Hl]. change (String c p ++ s) with (String c (p ++ s)).
  cbn [slice_to]. by rewrite IH.
Qed.

Section Resolver.
Context `{Codec}.
Variable remote : request -> reply.

Lemma hit_run number w e :
  cache w !! cache_key number = Some e ->
  value e <> [] ->
  get_country_with_bin remote number w =
    (match bytes_decode (value e) with
     | Some text => Returned (Some text)
     | None => Raised UnicodeDecodeError
     end,
     asked number w).
Proof.
  intros Hk Hv. unfold get_country_with_bin. unfold_run.
  rewrite Hk. cbn. destruct (value e) as [|b bs] eqn:E; [done|].
  by destruct (bytes_decode (b :: bs)).
Qed.

Lemma hit_value number w :
  cache_hit w number = true ->
  exists e, cache w !! cache_key number = Some e /\ value e <> [].
Proof.
  unfold cache_hit. destruct (cache w !! cache_key number) as [e|]; [|done].
  cbn. destruct (value e) eqn:E; [done|]. intros _. exists e. by rewrite E.
Qed.

Lemma failed_run number w e :
  cache_hit w number = false ->
  remote (lookup_request number) = Failed e ->
  get_country_with_bin remote number w =
    (match e with
     | ClientError msg => Returned (Some ("CLIENT_ERROR: " ++ msg))
     | TimeoutError => Returned (Some "TIMEOUT")
     | _ => Raised e
     end,
     requested number w).
Proof.
  unfold cache_hit, lookup_request. intros Hm Hr.
  unfold get_country_with_bin. unfold_run.
  destruct (value <$> cache w !! cache_key number) as [[|b bs]|];
    try done; rewrite Hr; by destruct e.
Qed.

Lemma status_run number w r :
  cache_hit w number = false ->
  remote (lookup_request number) = Responded r ->
  status r <> 200 ->
  get_country_with_bin remote number w =
    (Returned (Some (if status r =? 429 then "RATE_LIMIT"
                     else "HTTP_" ++ str_of_int (status r))),
     requested number w).
Proof.
  unfold cache_hit, lookup_request. intros Hm Hr Hs%Z.eqb_neq.
  unfold get_country_with_bin. unfold_run.
  destruct (value <$> cache w !! cache_key number) as [[|b bs]|];
    try done; rewrite Hr, Hs; by destruct (status r =? 429).
Qed.

Lemma body_raised_run number w r e :
  cache_hit w number = false ->
  remote (lookup_request number) = Responded r ->
  status r = 200 ->
  json r = Raised e ->
  get_country_with_bin remote number w =
    (match e with
     | ClientError msg => Returned (Some ("CLIENT_ERROR: " ++ msg))
     | TimeoutError => Returned (Some "TIMEOUT")
     | _ => Raised e
     end,
     requested number w).
Proof.
  unfold cache_hit, lookup_request. intros Hm Hr Hs Hj.
  unfold get_country_with_bin. unfold_run.
  destruct (value <$> cache w !! cache_key number) as [[|b bs]|];
    try done; rewrite Hr, Hs, Hj; by destruct e.
Qed.

Lemma resolved_run number w code :
  cache_hit w number = false ->
  resolved_code remote number = Some code ->
  get_country_with_bin remote number w =
    (Returned (Some code),
     {| cache := <[cache_key number :=
                    {| value := str_encode code; ttl := Some CACHE_TTL |}]> (cache w);
        open_conns := open_conns w;
        log := log w ++ [EvCacheGet (cache_key number);
                         EvHttpGet (lookup_request number);
                         EvCacheSet (cache_key number) code CACHE_TTL] |}).
Proof.
  unfold cache_hit, resolved_code, lookup_request. intros Hm Hr.
  unfold get_country_with_bin. unfold_run.
  destruct (remote _) as [r|]; [|done].
  destruct (status r =? 200); [|done].
  destruct (json r) as [[[|[fields|] items]|]|]; try done.
  destruct (fields !! "iso_code2") as [[|c]|]; try done.
  destruct (str_truthy c) eqn:Ht; [|done]. injection Hr as ->.
  destruct (value <$> cache w !! cache_key number) as [[|b bs]|];
    try done; cbn; rewrite Ht; cbn; by rewrite <- !app_assoc.
Qed.

Lemma unresolved_run number w :
  cache_hit w number = false ->
  resolved_code remote number = None ->
  (get_country_with_bin remote number w).2 = requested number w.
Proof.
  unfold cache_hit, resolved_code, lookup_request. intros Hm Hr.
  unfold get_country_with_bin. unfold_run.
  destruct (value <$> cache w !! cache_key number) as [[|b bs]|]; try done.
  all: destruct (remote _) as [r|e]; [|by destruct e].
  all: destruct (status r =? 200); [|by destruct (status r =? 429)].
  all: destruct (json r) as [[[|[fields|] items]|]|e]; try done; try by destruct e.
  all: cbn; destruct (fields !! "iso_code2") as [[|c]|]; try done.
  all: cbn; destruct (str_truthy c); done.
Qed.
End Resolver.

(** ** The resolver: cache hit, cache writes, key, sentinels *)

Section ResolverClaims.
Context `{Codec}.
Variable remote : request -> reply.

(** C1, as the code has it.  When the cache holds, under the key of
    [number], a non-empty value that decodes to [text],
    [get_country_with_bin] returns [text] straight after the cache
    read: the run logs that one read, so it sends no request and makes
    no cache write, and the cache is as it was. *)
Theorem cache_hit_returns_decoded_text number w e text :
  cache w !! ("bin_country:" ++ slice_to 6 number) = Some e ->
  value e <> [] ->
  bytes_decode (value e) = Some text ->
  let '(r, w') := get_country_with_bin remote number w in
  r = Returned (Some text) /\
  events_since w w' = [EvCacheGet ("bin_country:" ++ slice_to 6 number)] /\
  http_requests (events_since w w') = [] /\
  cache_writes (events_since w w') = [] /\
  cache w' = cache w.
Proof.
  intros Hk Hv Hd. rewrite (hit_run remote number w e Hk Hv), Hd.
  assert (Hev : events_since w (asked number w)
                = [EvCacheGet ("bin_country:" ++ slice_to 6 number)]).
  { by apply events_since_app. }
  rewrite Hev. by repeat split.
Qed.

(** On any non-empty cached value, decodable or not, the call ends
    straight after the cache read with what [cached.decode()] gives:
    the text, or the [UnicodeDecodeError] of bytes that are no text,
    which nothing in the resolver catches.  The run logs that one read,
    so it sends no request and makes no cache write, and the cache is as
    it was. *)
Theorem cache_hit_short_circuits number w e :
  cache w !! ("bin_country:" ++ slice_to 6 number) = Some e ->
  value e <> [] ->
  let '(r, w') := get_country_with_bin remote number w in
  r = match bytes_decode (value e) with
      | Some text => Returned (Some text)
      | None => Raised UnicodeDecodeError
      end /\
  events_since w w' = [EvCacheGet ("bin_country:" ++ slice_to 6 number)] /\
  http_requests (events_since w w') = [] /\
  cache_writes (events_since w w') = [] /\
  cache w' = cache w.
Proof.
  intros Hk Hv. rewrite (hit_run remote number w e Hk Hv).
  assert (Hev : events_since w (asked number w)
                = [EvCacheGet ("bin_country:" ++ slice_to 6 number)]).
  { by apply events_since_app. }
  rewrite Hev. by repeat split.
Qed.

(** C2.  A run of [get_country_with_bin] writes to the cache exactly
    when it resolves a code, that is on a cache miss answered by HTTP
    200 with a non-empty list whose first element has a truthy
    [iso_code2].  It then makes one write: that code, under
    ["bin_country:"] followed by the first six characters, with a
    time-to-live of 2592000 seconds.  On every other run there is no
    write and the cache is as it was. *)
Theorem cache_written_iff_resolved number w :
  let '(r, w') := get_country_with_bin remote number w in
  match (if cache_hit w number then None else resolved_code remote number) with
  | Some code =>
      r = Returned (Some code) /\
      cache_writes (events_since w w')
        = [("bin_country:" ++ slice_to 6 number, code, 2592000)] /\
      cache w' = <["bin_country:" ++ slice_to 6 number :=
                    {| value := str_encode code; ttl := Some 2592000 |}]> (cache w)
  | None =>
      cache_writes (events_since w w') = [] /\ cache w' = cache w
  end.
Proof.
  destruct (cache_hit w number) eqn:Hhit.
  - destruct (hit_value number w Hhit) as (e & Hk & Hv).
    rewrite (hit_run remote number w e Hk Hv).
    by rewrite (events_since_app w (asked number w) [EvCacheGet (cache_key number)]).
  - destruct (resolved_code remote number) as [code|] eqn:Hres.
    + rewrite (resolved_run remote number w code Hhit Hres).
      rewrite (events_since_app w _
                 [EvCacheGet (cache_key number); EvHttpGet (lookup_request number);
                  EvCacheSet (cache_key number) code CACHE_TTL]) by done.
      repeat split.
    + pose proof (unresolved_run remote number w Hhit Hres) as Hw.
      destruct (get_country_with_bin remote number w) as [r w']. cbn in Hw.
      subst w'.
      by rewrite (events_since_app w (requested number w)
                    [EvCacheGet (cache_key number); EvHttpGet (lookup_request number)])
        by (cbn; by rewrite <- app_assoc).
Qed.
(** C3.  The lookup key is the first six characters of the input and
    nothing else: the cache is read under ["bin_country:"] followed by
    that prefix, which is the whole input when it has fewer than six
    characters (no padding, and no error: the slice is total); the
    request carries the same prefix; and two inputs with the same first
    six characters run alike. *)
Theorem key_is_first_six_chars number w :
  (exists rest, number = slice_to 6 number ++ rest) /\
  String.length (slice_to 6 number) = Nat.min 6 (String.length number) /\
  ((String.length number <= 6)%nat -> slice_to 6 number = number) /\
  (exists evs,
     log (get_country_with_bin remote number w).2
     = (log w ++ EvCacheGet ("bin_country:" ++ slice_to 6 number) :: evs)%list /\
     forall req, req ∈ http_requests evs ->
       req_url req = "https://api.api-ninjas.com/v1/bin?bin=" ++ slice_to 6 number) /\
  (forall other,
     slice_to 6 other = slice_to 6 number ->
     get_country_with_bin remote other w = get_country_with_bin remote number w).
Proof.
  split; [apply slice_to_prefix|].
  split; [apply slice_to_length|].
  split; [apply slice_to_short|].
  split.
  - destruct (cache_hit w number) eqn:Hhit.
    + destruct (hit_value number w Hhit) as (e & Hk & Hv).
      rewrite (hit_run remote number w e Hk Hv). exists []. split; [done|].
      intros req Hreq. by apply elem_of_nil in Hreq.
    + exists (match resolved_code remote number with
              | Some code => [EvHttpGet (lookup_request number);
                              EvCacheSet (cache_key number) code CACHE_TTL]
              | None => [EvHttpGet (lookup_request number)]
              end).
      destruct (resolved_code remote number) as [code|] eqn:Hres.
      * rewrite (resolved_run remote number w code Hhit Hres). split; [done|].
        intros req Hreq. cbn in Hreq. apply list_elem_of_singleton in Hreq.
        by subst req.
      * rewrite (unresolved_run remote number w Hhit Hres). split.
        { cbn. by rewrite <- app_assoc. }
        intros req Hreq. cbn in Hreq. apply list_elem_of_singleton in Hreq.
        by subst req.
  - intros other Heq.
    unfold get_country_with_bin, cache_key, url, bin_number. by rewrite Heq.
Qed.

(** C3, on the inputs of the design document: both card numbers are
    looked up under the key of BIN 411111. *)
Example same_key_411111 :
  cache_key "411111119999" = "bin_country:411111" /\
  cache_key "411111000000" = "bin_country:411111" /\
  cache_key "4111" = "bin_country:4111".
Proof. by repeat split. Qed.

(** C4.  On a cache miss, a response with status 429 makes the resolver
    return ["RATE_LIMIT"], and a response with any other status [s]
    than 200 makes it return ["HTTP_"] followed by [s] in decimal; in
    both cases nothing is written to the cache. *)
Theorem non_200_status_sentinels number w r :
  cache_hit w number = false ->
  remote (lookup_request number) = Responded r ->
  status r <> 200 ->
  let '(res, w') := get_country_with_bin remote number w in
  (status r = 429 -> res = Returned (Some "RATE_LIMIT")) /\
  (status r <> 429 -> res = Returned (Some ("HTTP_" ++ str_of_int (status r)))) /\
  cache_writes (events_since w w') = [] /\
  cache w' = cache w.
Proof.
  intros Hhit Hr Hs. rewrite (status_run remote number w r Hhit Hr Hs).
  rewrite (events_since_app w (requested number w)
             [EvCacheGet (cache_key number); EvHttpGet (lookup_request number)])
    by (cbn; by rewrite <- app_assoc).
  repeat split.
  - by intros ->.
  - intros Hne%Z.eqb_neq. by rewrite Hne.
Qed.

(** C5.  On a cache miss, a request that ends in [asyncio.TimeoutError]
    (the client was given a timeout of 5 seconds) makes the resolver
    return ["TIMEOUT"], and one that ends in an [aiohttp.ClientError]
    makes it return ["CLIENT_ERROR: "] followed by the message of the
    error. *)
Theorem timeout_and_client_error_sentinels number w :
  cache_hit w number = false ->
  let '(res, w') := get_country_with_bin remote number w in
  (request_raises remote number TimeoutError ->
   res = Returned (Some "TIMEOUT")) /\
  (forall msg, request_raises remote number (ClientError msg) ->
   res = Returned (Some ("CLIENT_ERROR: " ++ msg))) /\
  (forall req, req ∈ http_requests (events_since w w') -> req_timeout req = 5).
Proof.
  intros Hhit.
  assert (Hraise : forall e, request_raises remote number e ->
    get_country_with_bin remote number w =
      (match e with
       | ClientError msg => Returned (Some ("CLIENT_ERROR: " ++ msg))
       | TimeoutError => Returned (Some "TIMEOUT")
       | _ => Raised e
       end, requested number w)).
  { intros e. unfold request_raises.
    destruct (remote (lookup_request number)) as [r|e'] eqn:Hr.
    - intros [Hs Hj]. by apply (body_raised_run remote number w r e).
    - intros ->. by apply failed_run. }
  assert (Hreqs : forall req,
    req ∈ http_requests (events_since w (get_country_with_bin remote number w).2) ->
    req_timeout req = 5).
  { destruct (resolved_code remote number) as [code|] eqn:Hres.
    - rewrite (resolved_run remote number w code Hhit Hres).
      rewrite (events_since_app w _
                 [EvCacheGet (cache_key number); EvHttpGet (lookup_request number);
                  EvCacheSet (cache_key number) code CACHE_TTL]) by done.
      intros req Hreq. cbn in Hreq. apply list_elem_of_singleton in Hreq. by subst.
    - rewrite (unresolved_run remote number w Hhit Hres).
      rewrite (events_since_app w (requested number w)
                 [EvCacheGet (cache_key number); EvHttpGet (lookup_request number)])
        by (cbn; by rewrite <- app_assoc).
      intros req Hreq. cbn in Hreq. apply list_elem_of_singleton in Hreq. by subst. }
  destruct (get_country_with_bin remote number w) as [res w'] eqn:Hrun.
  repeat split.
  - intros Ht. specialize (Hraise _ Ht). congruence.
  - intros msg Hc. specialize (Hraise _ Hc). congruence.
  - exact Hreqs.
Qed.
End ResolverClaims.

(** ** The classifier *)

Lemma EU_codes_have_two_letters c :
  c ∈ EU_COUNTRIES_ALPHA2 -> String.length c = 2%nat.
Proof.
  unfold EU_COUNTRIES_ALPHA2. rewrite elem_of_list_to_set.
  intros Hc. repeat (apply elem_of_cons in Hc as [->|Hc]; [done|]).
  by apply elem_of_nil in Hc.
Qed.

Lemma classify_long c :
  (2 < String.length c)%nat -> classify_country_by_alpha2 (Some c) = "OTHER".
Proof.
  intros Hl. unfold classify_country_by_alpha2.
  destruct c as [|a c]; [cbn in Hl; lia|]. cbn [str_truthy negb].
  destruct (String.eqb_spec (String a c) SERBIA_ALPHA2) as [Heq|_].
  { rewrite Heq in Hl. cbn in Hl. lia. }
  rewrite bool_decide_eq_false_2; [done|].
  intros Hin%EU_codes_have_two_letters. lia.
Qed.

Lemma classify_unknown r :
  classify_country_by_alpha2 r = "UNKNOWN" <-> r = None \/ r = Some "".
Proof.
  split.
  - destruct r as [[|a c]|]; [by right| |by left].
    unfold classify_country_by_alpha2. cbn [str_truthy negb].
    destruct (String.eqb _ _); [done|]. by destruct (bool_decide _).
  - by intros [-> | ->].
Qed.

Lemma length_app_string (s t : string) :
  String.length (s ++ t) = (String.length s + String.length t)%nat.
Proof.
  induction s as [|a s IH]; [done|].
  change (String a s ++ t) with (String a (s ++ t)). cbn. by rewrite IH.
Qed.

(** C6.  [classify_country_by_alpha2] is a total function with exactly
    four outcomes: ["UNKNOWN"] for [None] and for the empty text, ["RS"]
    for ["RS"], ["EU"] for the members of the set of 31 codes (which
    holds Iceland, Liechtenstein, Norway and Switzerland beside EU
    states such as Germany), and ["OTHER"] for every other text. *)
Theorem classify_mapping (c : string) :
  classify_country_by_alpha2 None = "UNKNOWN" /\
  classify_country_by_alpha2 (Some "") = "UNKNOWN" /\
  classify_country_by_alpha2 (Some "RS") = "RS" /\
  size EU_COUNTRIES_ALPHA2 = 31%nat /\
  ({[ "IS"; "LI"; "NO"; "CH"; "DE" ]} : gset string) ⊆ EU_COUNTRIES_ALPHA2 /\
  classify_country_by_alpha2 (Some "DE") = "EU" /\
  classify_country_by_alpha2 (Some "NO") = "EU" /\
  classify_country_by_alpha2 (Some c) =
    (if decide (c = "") then "UNKNOWN"
     else if decide (c = "RS") then "RS"
     else if decide (c ∈ EU_COUNTRIES_ALPHA2) then "EU"
     else "OTHER").
Proof.
  repeat split; try by vm_compute.
  - apply (bool_decide_unpack _). by vm_compute.
  - unfold classify_country_by_alpha2.
    destruct (decide (c = "")) as [->|Hne]; [done|].
    destruct c as [|a c]; [done|]. cbn [str_truthy negb].
    destruct (String.eqb_spec (String a c) SERBIA_ALPHA2) as [->|Hrs].
    + by rewrite decide_True.
    + rewrite decide_False by done. by destruct (decide _); [rewrite bool_decide_eq_true_2|rewrite bool_decide_eq_false_2].
Qed.

(** C7.  Each sentinel the resolver can return (["RATE_LIMIT"],
    ["HTTP_"] followed by a status, ["TIMEOUT"], ["CLIENT_ERROR: "]
    followed by a message) is classified ["OTHER"]: it is a non-empty
    text that is neither ["RS"] nor one of the EU codes. *)
Theorem sentinels_classified_other (st : Z) (msg : string) :
  classify_country_by_alpha2 (Some "RATE_LIMIT") = "OTHER" /\
  classify_country_by_alpha2 (Some ("HTTP_" ++ str_of_int st)) = "OTHER" /\
  classify_country_by_alpha2 (Some "TIMEOUT") = "OTHER" /\
  classify_country_by_alpha2 (Some ("CLIENT_ERROR: " ++ msg)) = "OTHER".
Proof.
  repeat split; apply classify_long; rewrite ?length_app_string; cbn; lia.
Qed.

(** ** Two calls in a row, and what a call can return *)

Lemma app_not_empty (a : ascii) (s t : string) : String a s ++ t <> "".
Proof. change (String a s ++ t) with (String a (s ++ t)). discriminate. Qed.

Section CodecClaims.
Context {codec : Codec} {laws : CodecLaws}.
Variable remote : request -> reply.

Lemma resolved_code_truthy number code :
  resolved_code remote number = Some code -> code <> "".
Proof.
  unfold resolved_code.
  destruct (remote _) as [r|]; [|done].
  destruct (status r =? 200); [|done].
  destruct (json r) as [[[|[fields|] items]|]|]; try done.
  destruct (fields !! "iso_code2") as [[|c]|]; try done.
  destruct c; [done|]. by intros [= <-].
Qed.

Lemma encode_not_empty code : code <> "" -> str_encode code <> [].
Proof.
  intros Hne Henc. pose proof (decode_encode code) as Hd.
  rewrite Henc, decode_empty in Hd. congruence.
Qed.

Lemma miss_not_empty number w :
  cache_hit w number = false ->
  (get_country_with_bin remote number w).1 <> Returned (Some "").
Proof.
  unfold cache_hit, lookup_request. intros Hm.
  unfold get_country_with_bin. unfold_run.
  destruct (value <$> cache w !! cache_key number) as [[|b bs]|]; try done.
  all: destruct (remote _) as [r|e]; [|destruct e; try done; cbn; intros [= Hx]; by apply app_not_empty in Hx].
  all: destruct (status r =? 200);
    [|destruct (status r =? 429); [done|cbn; intros [= Hx]; by apply app_not_empty in Hx]].
  all: destruct (json r) as [[[|[fields|] items]|]|e]; try done;
    try (destruct e; try done; cbn; intros [= Hx]; by apply app_not_empty in Hx).
  all: cbn; destruct (fields !! "iso_code2") as [[|c]|]; try done.
  all: cbn; by destruct c.
Qed.

(** C9.  Two calls in a row.  When a first call for an uncached BIN is
    answered by the remote service with code [c], it returns [c]; the
    call that follows for the same BIN, whatever the remote service
    would answer by then, returns [c] again from the cache: its only
    event is the cache read, and it sends no request. *)
Theorem second_call_is_cache_hit (remote' : request -> reply) number w c :
  cache_hit w number = false ->
  resolved_code remote number = Some c ->
  let '(r1, w1) := get_country_with_bin remote number w in
  let '(r2, w2) := get_country_with_bin remote' number w1 in
  r1 = Returned (Some c) /\
  r2 = Returned (Some c) /\
  events_since w1 w2 = [EvCacheGet ("bin_country:" ++ slice_to 6 number)] /\
  http_requests (events_since w1 w2) = [] /\
  cache w2 = cache w1.
Proof.
  intros Hhit Hres. rewrite (resolved_run remote number w c Hhit Hres).
  set (w1 := {| cache := _ |}).
  assert (Hk : cache w1 !! cache_key number
               = Some {| value := str_encode c; ttl := Some CACHE_TTL |})
    by apply lookup_insert_eq.
  assert (Hv : value {| value := str_encode c; ttl := Some CACHE_TTL |} <> [])
    by (apply encode_not_empty; by eapply resolved_code_truthy).
  rewrite (hit_run remote' number w1 _ Hk Hv). cbn [value].
  rewrite decode_encode.
  rewrite (events_since_app w1 (asked number w1) [EvCacheGet (cache_key number)]) by done.
  by repeat split.
Qed.

(** C10.  [get_country_with_bin] never returns the empty text: a
    returned value is [None] or a non-empty text, since an empty cached
    value and an empty [iso_code2] both count as absent.  So the
    classifier answers ["UNKNOWN"] on the result of the resolver exactly
    when that result is [None]. *)
Theorem resolver_never_returns_empty number w r :
  (get_country_with_bin remote number w).1 = Returned r ->
  r <> Some "" /\
  (classify_country_by_alpha2 r = "UNKNOWN" <-> r = None).
Proof.
  intros Hrun.
  assert (Hne : r <> Some "").
  { intros ->. destruct (cache_hit w number) eqn:Hhit.
    - destruct (hit_value number w Hhit) as (e & Hk & Hv).
      rewrite (hit_run remote number w e Hk Hv) in Hrun. cbn in Hrun.
      destruct (bytes_decode (value e)) as [text|] eqn:Hd; [|done].
      injection Hrun as ->. by apply decode_nonempty in Hd.
    - by apply (miss_not_empty number w Hhit). }
  split; [done|]. rewrite classify_unknown.
  split; [intros [Hn|Hs]; [done|by destruct Hne] | by left].
Qed.
End CodecClaims.

(** ** The orchestrator *)

Section MainClaims.
Context {codec : Codec}.
Variable remote : request -> reply.

Lemma resolver_keeps_connections number w :
  open_conns (get_country_with_bin remote number w).2 = open_conns w.
Proof.
  destruct (cache_hit w number) eqn:Hhit.
  - destruct (hit_value number w Hhit) as (e & Hk & Hv).
    by rewrite (hit_run remote number w e Hk Hv).
  - destruct (resolved_code remote number) as [code|] eqn:Hres.
    + by rewrite (resolved_run remote number w code Hhit Hres).
    + by rewrite (unresolved_run remote number w Hhit Hres).
Qed.

(** Whenever the resolver returns (a code, [None] or a sentinel), [main]
    returns the record and has released the connection it acquired. *)
Lemma main_releases_on_return number w a :
  (get_country_with_bin remote number (redis_from_url REDIS_URL w).2).1 = Returned a ->
  let '(r, w') := main remote number w in
  r = Returned {| bin := number; country_alpha2 := a;
                  classification := classify_country_by_alpha2 a |} /\
  open_conns w' = open_conns w /\
  last (log w') = Some EvClose.
Proof.
  intros Hrun. pose proof (resolver_keeps_connections number (redis_from_url REDIS_URL w).2) as Hc.
  unfold main, bind at 1 2. 
  destruct (redis_from_url REDIS_URL w) as [[[]|e] w1] eqn:H1; [|done].
  cbn [snd] in Hrun, Hc.
  destruct (get_country_with_bin remote number w1) as [res w2].
  cbn in Hrun, Hc. subst res. unfold_run. cbn.
  injection H1 as <-. cbn in Hc. rewrite Hc. repeat split. by rewrite last_snoc.
Qed.

(** Whenever the resolver raises, the exception leaves [main] before
    [aclose] is reached: the connection stays acquired. *)
Lemma main_leaks_on_exception number w e :
  (get_country_with_bin remote number (redis_from_url REDIS_URL w).2).1 = Raised e ->
  let '(r, w') := main remote number w in
  r = Raised e /\
  open_conns w' = S (open_conns w) /\
  EvClose ∉ events_since w w'.
Proof.
  intros Hrun.
  pose proof (resolver_keeps_connections number (redis_from_url REDIS_URL w).2) as Hc.
  assert (Hlog : exists evs, log (get_country_with_bin remote number (redis_from_url REDIS_URL w).2).2
                   = (log w ++ EvConnect REDIS_URL :: evs)%list /\ EvClose ∉ evs).
  { set (w1 := (redis_from_url REDIS_URL w).2).
    destruct (cache_hit w1 number) eqn:Hhit.
    - destruct (hit_value number w1 Hhit) as (e' & Hk & Hv).
      rewrite (hit_run remote number w1 e' Hk Hv). eexists. split.
      + cbn. rewrite <- app_assoc. reflexivity.
      + not_in_events.
    - destruct (resolved_code remote number) as [code|] eqn:Hres.
      + rewrite (resolved_run remote number w1 code Hhit Hres). eexists. split.
        * cbn. rewrite <- app_assoc. reflexivity.
        * not_in_events.
      + rewrite (unresolved_run remote number w1 Hhit Hres). eexists. split.
        * cbn. rewrite <- !app_assoc. reflexivity.
        * not_in_events. }
  destruct Hlog as (evs & Hlog & Hnot).
  unfold main, bind at 1 2.
  destruct (redis_from_url REDIS_URL w) as [[[]|e0] w1] eqn:H1; [|done].
  cbn [snd] in Hrun, Hc, Hlog.
  destruct (get_country_with_bin remote number w1) as [res w2].
  cbn in Hrun, Hc, Hlog. subst res.
  injection H1 as <-. cbn in Hc. repeat split; [done|].
  rewrite (events_since_app w w2 (EvConnect REDIS_URL :: evs)) by done.
  by intros [Hin|Hin]%elem_of_cons.
Qed.
End MainClaims.

(** C8, at a run where it fails.  BIN 411111 is not cached and the
    remote service answers 200 with a list whose first element is no
    object: [.get] raises [AttributeError], which no [except] clause of
    the resolver catches, and [main] is left with the connection it
    acquired still open: [aclose] never runs. *)
Theorem main_leaks_connection_at_odd_list :
  let '(r, w') := @main latin1_codec remote_odd_list "411111" empty_world in
  r = Raised AttributeError /\
  open_conns empty_world = 0%nat /\
  open_conns w' = 1%nat /\
  EvClose ∉ log w'.
Proof.
  vm_compute. repeat split. not_in_events.
Qed.

(** ** The properties at concrete runs *)

Lemma latin1_laws : @CodecLaws latin1_codec.
Proof.
  split.
  - intros s. cbn. f_equal. apply string_of_list_byte_of_string.
  - done.
  - intros [|b bs]; [done|]. cbn. discriminate.
Qed.

(** C1 as the claim words it fails: the cache holds the non-empty
    value [b"\xff\xfe"] under the key of BIN 411111, and the call does
    not return a decoded value; it raises [UnicodeDecodeError]. *)
Lemma cache_hit_undecodable_raises :
  cache garbled_world !! ("bin_country:" ++ slice_to 6 "411111")
  = Some {| value := [xff; xfe]; ttl := None |} /\
  [xff; xfe] <> [] /\
  (@get_country_with_bin strict_codec (remote_code "US") "411111" garbled_world).1
  = Raised UnicodeDecodeError.
Proof. split; [reflexivity|]. split; [discriminate|reflexivity]. Qed.

(** C1 at a cache that knows BIN 411111: the card number is answered
    ["US"] from the cache, though the remote service is down. *)
Lemma cache_hit_returns_decoded_text_witness :
  let '(r, w') :=
    @get_country_with_bin latin1_codec (remote_status 503) "411111119999" warm_world in
  r = Returned (Some "US") /\
  events_since warm_world w' = [EvCacheGet "bin_country:411111"] /\
  http_requests (events_since warm_world w') = [] /\
  cache_writes (events_since warm_world w') = [] /\
  cache w' = cache warm_world.
Proof.
  apply (@cache_hit_returns_decoded_text latin1_codec (remote_status 503) "411111119999"
           warm_world {| value := list_byte_of_string "US"; ttl := Some CACHE_TTL |} "US").
  - reflexivity.
  - discriminate.
  - reflexivity.
Defined.

(** The same run, read as an outcome of [cached.decode()]. *)
Lemma cache_hit_short_circuits_witness :
  let '(r, w') :=
    @get_country_with_bin latin1_codec (remote_status 503) "411111119999" warm_world in
  r = Returned (Some "US") /\
  events_since warm_world w' = [EvCacheGet "bin_country:411111"] /\
  http_requests (events_since warm_world w') = [] /\
  cache_writes (events_since warm_world w') = [] /\
  cache w' = cache warm_world.
Proof.
  apply (@cache_hit_short_circuits latin1_codec (remote_status 503) "411111119999"
           warm_world {| value := list_byte_of_string "US"; ttl := Some CACHE_TTL |}).
  - reflexivity.
  - discriminate.
Defined.

(** C4 at status 503: the resolver returns ["HTTP_503"] and leaves the
    cache empty. *)
Lemma non_200_status_sentinels_witness :
  let '(res, w') :=
    @get_country_with_bin latin1_codec (remote_status 503) "411111" empty_world in
  (503 = 429 -> res = Returned (Some "RATE_LIMIT")) /\
  (503 <> 429 -> res = Returned (Some "HTTP_503")) /\
  cache_writes (events_since empty_world w') = [] /\
  cache w' = ∅.
Proof.
  apply (@non_200_status_sentinels latin1_codec (remote_status 503) "411111" empty_world
           {| status := 503; json := Returned NotList |}).
  - reflexivity.
  - reflexivity.
  - discriminate.
Defined.

(** C5 at a request that times out. *)
Lemma timeout_and_client_error_sentinels_witness :
  cache_hit empty_world "411111" = false /\
  request_raises (remote_failing TimeoutError) "411111" TimeoutError /\
  (@get_country_with_bin latin1_codec (remote_failing TimeoutError) "411111" empty_world).1
  = Returned (Some "TIMEOUT").
Proof.
  split; [reflexivity|]. split; [reflexivity|].
  pose proof (@timeout_and_client_error_sentinels latin1_codec
                (remote_failing TimeoutError) "411111" empty_world eq_refl) as Hw.
  destruct (get_country_with_bin _ _ _) as [res w'].
  destruct Hw as [Ht _]. exact (Ht eq_refl).
Defined.

(** C9 at BIN 411111: after the service answered ["US"] once, the next
    call answers ["US"] although the service now fails. *)
Lemma second_call_is_cache_hit_witness :
  let '(r1, w1) :=
    @get_country_with_bin latin1_codec (remote_code "US") "411111" empty_world in
  let '(r2, w2) :=
    @get_country_with_bin latin1_codec (remote_failing TimeoutError) "411111" w1 in
  r1 = Returned (Some "US") /\
  r2 = Returned (Some "US") /\
  events_since w1 w2 = [EvCacheGet "bin_country:411111"] /\
  http_requests (events_since w1 w2) = [] /\
  cache w2 = cache w1.
Proof.
  apply (@second_call_is_cache_hit latin1_codec latin1_laws (remote_code "US")
           (remote_failing TimeoutError) "411111" empty_world "US").
  - reflexivity.
  - reflexivity.
Defined.

(** C10 at a service that answers with an empty [iso_code2]: the
    resolver returns [None], and the classifier says ["UNKNOWN"]. *)
Lemma resolver_never_returns_empty_witness :
  (@get_country_with_bin latin1_codec (remote_code "") "411111" empty_world).1
  = Returned None /\
  None <> Some "" /\
  (classify_country_by_alpha2 None = "UNKNOWN" <-> @None string = None).
Proof.
  split; [reflexivity|].
  apply (@resolver_never_returns_empty latin1_codec latin1_laws (remote_code "")
           "411111" empty_world None).
  reflexivity.
Defined.

(** [main] at a rate-limited lookup: the sentinel is classified
    ["OTHER"], and the connection is released. *)
Lemma main_releases_on_return_witness :
  let '(r, w') := @main latin1_codec (remote_status 429) "411111" empty_world in
  r = Returned {| bin := "411111"; country_alpha2 := Some "RATE_LIMIT";
                  classification := "OTHER" |} /\
  open_conns w' = 0%nat /\
  last (log w') = Some EvClose.
Proof.
  apply (@main_releases_on_return latin1_codec (remote_status 429) "411111" empty_world
           (Some "RATE_LIMIT")).
  reflexivity.
Defined.

(** [main] at a 200 response whose body does not parse as JSON: the
    [ValueError] of the parser leaves [main] with the connection open. *)
Lemma main_leaks_on_exception_witness :
  let '(r, w') :=
    @main latin1_codec
      (fun _ => Responded {| status := 200; json := Raised (OtherError "JSONDecodeError") |})
      "411111" empty_world in
  r = Raised (OtherError "JSONDecodeError") /\
  open_conns w' = 1%nat /\
  EvClose ∉ events_since empty_world w'.
Proof.
  apply (@main_leaks_on_exception latin1_codec
           (fun _ => Responded {| status := 200; json := Raised (OtherError "JSONDecodeError") |})
           "411111" empty_world (OtherError "JSONDecodeError")).
  reflexivity.
Defined.

(** * Further properties of the program *)

(** ** Runs as equations *)

Section Runs.
Context {codec : Codec}.
Variable remote : request -> reply.

(** The world a call of the resolver ends in. *)
Lemma run_world number w :
  (get_country_with_bin remote number w).2 =
    if cache_hit w number then asked number w
    else match resolved_code remote number with
         | Some code => stored number code (requested number w)
         | None => requested number w
         end.
Proof.
  destruct (cache_hit w number) eqn:Hhit.
  - destruct (hit_value number w Hhit) as (e & Hk & Hv).
    by rewrite (hit_run remote number w e Hk Hv).
  - destruct (resolved_code remote number) as [code|] eqn:Hres.
    + rewrite (resolved_run remote number w code Hhit Hres).
      unfold stored, requested, asked, record, redis_set. cbn.
      by rewrite <- !app_assoc.
    + by apply unresolved_run.
Qed.

(** The events of a call. *)
Lemma run_events number w :
  events_since w (get_country_with_bin remote number w).2 =
    EvCacheGet (cache_key number) ::
    if cache_hit w number then []
    else EvHttpGet (lookup_request number) ::
         match resolved_code remote number with
         | Some code => [EvCacheSet (cache_key number) code CACHE_TTL]
         | None => []
         end.
Proof.
  rewrite run_world. apply events_since_app.
  destruct (cache_hit w number); [done|].
  destruct (resolved_code remote number); cbn; by rewrite <- !app_assoc.
Qed.

(** A 200 response with a body but no code: [None], unless the first
    element is no object. *)
Lemma no_code_run number w r b :
  cache_hit w number = false ->
  remote (lookup_request number) = Responded r ->
  status r = 200 ->
  json r = Returned b ->
  resolved_code remote number = None ->
  (get_country_with_bin remote number w).1 =
    match b with
    | JsonList (NotObject :: _) => Raised AttributeError
    | _ => Returned None
    end.
Proof.
  unfold cache_hit, resolved_code, lookup_request. intros Hm Hr Hs Hj.
  rewrite Hr, Hs, Hj. cbn. intros Hres.
  unfold get_country_with_bin. unfold_run.
  destruct (value <$> cache w !! cache_key number) as [[|b0 bs]|]; try done.
  all: rewrite Hr, Hs, Hj; cbn.
  all: destruct b as [[|[fields|] items]|]; try done.
  all: cbn; destruct (fields !! "iso_code2") as [[|c]|]; try done.
  all: cbn; by destruct (str_truthy c).
Qed.

(** [main] is the resolver between acquiring and releasing the client;
    the release is skipped when the resolver raises. *)
Lemma main_run number w :
  main remote number w =
    match get_country_with_bin remote number (connected w) with
    | (Returned a, w') =>
        (Returned {| bin := number; country_alpha2 := a;
                     classification := classify_country_by_alpha2 a |},
         released w')
    | (Raised e, w') => (Raised e, w')
    end.
Proof.
  unfold main, connected, released, bind, redis_from_url, redis_aclose, ret.
  cbn [fst snd].
  by destruct (get_country_with_bin remote number _) as [[a|e] w'].
Qed.
End Runs.

(** ** One attempt, and what a call leaves alone *)

Section Attempt.
Context {codec : Codec}.
Variable remote : request -> reply.

(** A call makes one attempt.  It reads the cache once, first, under
    the key of the BIN; on a hit it sends nothing, and on a miss it
    sends one request: a GET of the BIN URL with the API key header and
    a timeout of 5 seconds.  Nothing is retried. *)
Theorem resolver_single_attempt number w :
  exists evs,
    events_since w (get_country_with_bin remote number w).2
    = EvCacheGet ("bin_country:" ++ slice_to 6 number) :: evs /\
    (forall k, EvCacheGet k ∉ evs) /\
    http_requests evs =
      if cache_hit w number then []
      else [ {| req_url := "https://api.api-ninjas.com/v1/bin?bin=" ++ slice_to 6 number;
                req_headers := {[ "X-Api-Key" := API_NINJAS_KEY ]};
                req_timeout := 5 |} ].
Proof.
  rewrite run_events. eexists. split; [reflexivity|].
  destruct (cache_hit w number).
  - split; [|done]. intros k. not_in_events.
  - destruct (resolved_code remote number); (split; [|done]); intros k; not_in_events.
Qed.

(** A call touches one cache key at most.  Every other key reads as
    before, no client is acquired or released, and the log only grows. *)
Theorem resolver_frame number w :
  let w' := (get_country_with_bin remote number w).2 in
  (forall k, k <> "bin_country:" ++ slice_to 6 number ->
             cache w' !! k = cache w !! k) /\
  open_conns w' = open_conns w /\
  (log w `prefix_of` log w') /\
  (EvClose ∉ events_since w w') /\
  (forall u, EvConnect u ∉ events_since w w').
Proof.
  cbn zeta. rewrite run_events, run_world.
  destruct (cache_hit w number).
  { split; [done|]. split; [done|]. split; [by eexists|].
    split; [|intros u]; not_in_events. }
  destruct (resolved_code remote number) as [code|].
  - split.
    { intros k Hk. unfold stored, redis_set. cbn. by rewrite lookup_insert_ne. }
    split; [done|]. split.
    { unfold stored, redis_set, requested, asked, record. cbn.
      rewrite <- !app_assoc. by eexists. }
    split; [|intros u]; not_in_events.
  - split; [done|]. split; [done|]. split.
    { unfold requested, asked, record. cbn. rewrite <- !app_assoc. by eexists. }
    split; [|intros u]; not_in_events.
Qed.

(** Nothing but a resolved code is remembered.  After a miss that did
    not resolve (a sentinel, [None] or an exception), the BIN is still a
    miss, and the next call sends the request again. *)
Theorem unresolved_miss_is_retried (remote' : request -> reply) number w :
  cache_hit w number = false ->
  resolved_code remote number = None ->
  let w1 := (get_country_with_bin remote number w).2 in
  cache_hit w1 number = false /\
  http_requests (events_since w1 (get_country_with_bin remote' number w1).2)
  = [lookup_request number].
Proof.
  intros Hhit Hres. cbn zeta. rewrite (run_world remote), Hhit, Hres.
  assert (Hhit1 : cache_hit (requested number w) number = false) by done.
  split; [done|]. rewrite run_events, Hhit1.
  by destruct (resolved_code remote' number).
Qed.

(** An empty cached value counts as no value: the call goes to the
    remote service as it does when the key is missing. *)
Theorem empty_cached_value_is_a_miss number w e :
  cache w !! ("bin_country:" ++ slice_to 6 number) = Some e ->
  value e = [] ->
  (get_country_with_bin remote number w).1
  = (get_country_with_bin remote number
       {| cache := delete ("bin_country:" ++ slice_to 6 number) (cache w);
          open_conns := open_conns w; log := log w |}).1 /\
  http_requests (events_since w (get_country_with_bin remote number w).2)
  = [lookup_request number].
Proof.
  intros Hk Hv.
  assert (Hhit : cache_hit w number = false).
  { unfold cache_hit, cache_key, bin_number. rewrite Hk. cbn. by rewrite Hv. }
  split.
  - unfold get_country_with_bin. unfold_run. cbn.
    unfold cache_key, bin_number. rewrite Hk, lookup_delete_eq. cbn. rewrite Hv.
    destruct (remote _) as [r|err]; [|by destruct err].
    destruct (status r =? 200); [|by destruct (status r =? 429)].
    destruct (json r) as [[[|[fields|] items]|]|err]; try done; try by destruct err.
    cbn. destruct (fields !! "iso_code2") as [[|c]|]; try done.
    cbn. by destruct (str_truthy c).
  - rewrite run_events, Hhit. by destruct (resolved_code remote number).
Qed.
End Attempt.

(** ** What a call returns, and what it raises *)

Section Outcomes.
Context {codec : Codec}.
Variable remote : request -> reply.

(** A 200 answer without a usable code gives [None] and writes nothing:
    a body that is no list, an empty list, or a first object whose
    [iso_code2] is missing, null or empty. *)
Theorem answer_without_code_gives_none number w r b :
  cache_hit w number = false ->
  remote (lookup_request number) = Responded r ->
  status r = 200 ->
  json r = Returned b ->
  resolved_code remote number = None ->
  (forall items, b <> JsonList (NotObject :: items)) ->
  let '(res, w') := get_country_with_bin remote number w in
  res = Returned None /\
  cache w' = cache w /\
  cache_writes (events_since w w') = [].
Proof.
  intros Hhit Hr Hs Hj Hres Hobj.
  pose proof (no_code_run remote number w r b Hhit Hr Hs Hj Hres) as Hres1.
  pose proof (run_world remote number w) as Hw.
  pose proof (run_events remote number w) as Hev.
  rewrite Hhit, Hres in Hw, Hev.
  destruct (get_country_with_bin remote number w) as [res w']. cbn in Hres1, Hw, Hev.
  subst w'. rewrite Hev. split; [|done]. rewrite Hres1.
  destruct b as [[|[fields|] items]|]; try done. by destruct (Hobj items).
Qed.

(** A list whose first element is no object makes [.get] raise
    [AttributeError], which the resolver does not catch. *)
Theorem non_object_element_raises number w r items :
  cache_hit w number = false ->
  remote (lookup_request number) = Responded r ->
  status r = 200 ->
  json r = Returned (JsonList (NotObject :: items)) ->
  get_country_with_bin remote number w = (Raised AttributeError, requested number w).
Proof.
  intros Hhit Hr Hs Hj.
  assert (Hres : resolved_code remote number = None).
  { unfold resolved_code. by rewrite Hr, Hs, Hj. }
  pose proof (no_code_run remote number w r _ Hhit Hr Hs Hj Hres) as Hres1.
  pose proof (unresolved_run remote number w Hhit Hres) as Hw.
  destruct (get_country_with_bin remote number w) as [res w']. cbn in Hres1, Hw.
  by subst.
Qed.

(** The two [except] clauses catch two classes and no more: a request
    that ends in any other exception makes the resolver raise that
    exception, after the request and with the cache as it was. *)
Theorem uncaught_exception_propagates number w e :
  cache_hit w number = false ->
  request_raises remote number e ->
  e <> TimeoutError ->
  (forall msg, e <> ClientError msg) ->
  let '(res, w') := get_country_with_bin remote number w in
  res = Raised e /\
  events_since w w' = [EvCacheGet (cache_key number); EvHttpGet (lookup_request number)] /\
  cache w' = cache w.
Proof.
  intros Hhit Hraise Ht Hc.
  assert (Hrun : get_country_with_bin remote number w = (Raised e, requested number w)).
  { unfold request_raises in Hraise.
    destruct (remote (lookup_request number)) as [r|e'] eqn:Hr.
    - destruct Hraise as [Hs Hj].
      rewrite (body_raised_run remote number w r e Hhit Hr Hs Hj).
      destruct e; try done. by destruct (Hc msg).
    - subst e'. rewrite (failed_run remote number w e Hhit Hr).
      destruct e; try done. by destruct (Hc msg). }
  rewrite Hrun. split; [done|]. split; [|done].
  apply events_since_app. cbn. by rewrite <- app_assoc.
Qed.

(** The resolver never raises what it catches: a call does not end in
    [asyncio.TimeoutError] or in an [aiohttp.ClientError]. *)
Theorem resolver_never_raises_caught number w :
  (get_country_with_bin remote number w).1 <> Raised TimeoutError /\
  (forall msg, (get_country_with_bin remote number w).1 <> Raised (ClientError msg)).
Proof.
  assert (Hall : forall e, (get_country_with_bin remote number w).1 = Raised e ->
                 e <> TimeoutError /\ forall msg, e <> ClientError msg).
  { intros e. destruct (cache_hit w number) eqn:Hhit.
    { destruct (hit_value number w Hhit) as (en & Hk & Hv).
      rewrite (hit_run remote number w en Hk Hv). cbn.
      destruct (bytes_decode (value en)); [done|]. by intros [= <-]. }
    destruct (remote (lookup_request number)) as [r|e'] eqn:Hr.
    - destruct (Z.eq_dec (status r) 200) as [Hs|Hs].
      + destruct (json r) as [b|e'] eqn:Hj.
        * destruct (resolved_code remote number) as [code|] eqn:Hres.
          { by rewrite (resolved_run remote number w code Hhit Hres). }
          rewrite (no_code_run remote number w r b Hhit Hr Hs Hj Hres).
          destruct b as [[|[fields|] items]|]; try done. by intros [= <-].
        * rewrite (body_raised_run remote number w r e' Hhit Hr Hs Hj). cbn.
          destruct e'; try done; by intros [= <-].
      + by rewrite (status_run remote number w r Hhit Hr Hs).
    - rewrite (failed_run remote number w e' Hhit Hr). cbn.
      destruct e'; try done; by intros [= <-]. }
  split.
  - intros Heq. by destruct (Hall _ Heq) as [Ht _].
  - intros msg Heq. destruct (Hall _ Heq) as [_ Hc]. by destruct (Hc msg).
Qed.

(** Every text the resolver returns has one of six origins: the cached
    value, the code of the remote answer, or one of the four sentinels,
    each for its own condition. *)
Theorem resolver_outcomes number w s :
  (get_country_with_bin remote number w).1 = Returned (Some s) ->
  (exists e, cache w !! cache_key number = Some e /\ value e <> [] /\
             bytes_decode (value e) = Some s) \/
  (cache_hit w number = false /\
   (resolved_code remote number = Some s \/
    (exists r, remote (lookup_request number) = Responded r /\
               status r = 429 /\ s = "RATE_LIMIT") \/
    (exists r, remote (lookup_request number) = Responded r /\
               status r <> 200 /\ status r <> 429 /\
               s = "HTTP_" ++ str_of_int (status r)) \/
    (request_raises remote number TimeoutError /\ s = "TIMEOUT") \/
    (exists msg, request_raises remote number (ClientError msg) /\
                 s = "CLIENT_ERROR: " ++ msg))).
Proof.
  destruct (cache_hit w number) eqn:Hhit.
  { destruct (hit_value number w Hhit) as (en & Hk & Hv).
    rewrite (hit_run remote number w en Hk Hv). cbn.
    destruct (bytes_decode (value en)) as [text|] eqn:Hd; [|done].
    intros [= <-]. left. by exists en. }
  intros Hrun. right. split; [done|].
  unfold request_raises.
  destruct (remote (lookup_request number)) as [r|e'] eqn:Hr.
  - destruct (Z.eq_dec (status r) 200) as [Hs|Hs].
    + destruct (json r) as [b|e'] eqn:Hj.
      * destruct (resolved_code remote number) as [code|] eqn:Hres.
        { rewrite (resolved_run remote number w code Hhit Hres) in Hrun.
          left. by injection Hrun as ->. }
        rewrite (no_code_run remote number w r b Hhit Hr Hs Hj Hres) in Hrun.
        by destruct b as [[|[fields|] items]|].
      * rewrite (body_raised_run remote number w r e' Hhit Hr Hs Hj) in Hrun.
        cbn in Hrun. destruct e' as [msg| | | |]; try done; injection Hrun as <-.
        -- do 4 right. by exists msg.
        -- do 3 right. by left.
    + rewrite (status_run remote number w r Hhit Hr Hs) in Hrun. cbn in Hrun.
      injection Hrun as <-. destruct (Z.eqb_spec (status r) 429) as [H429|H429].
      * right. left. by exists r.
      * do 2 right. left. by exists r.
  - rewrite (failed_run remote number w e' Hhit Hr) in Hrun. cbn in Hrun.
    destruct e' as [msg| | | |]; try done; injection Hrun as <-.
    + do 4 right. by exists msg.
    + do 3 right. by left.
Qed.
End Outcomes.

(** ** The classifier, read backwards *)

Lemma classify_some c :
  classify_country_by_alpha2 (Some c) =
    if decide (c = "") then "UNKNOWN"
    else if decide (c = "RS") then "RS"
    else if decide (c ∈ EU_COUNTRIES_ALPHA2) then "EU"
    else "OTHER".
Proof.
  unfold classify_country_by_alpha2.
  destruct (decide (c = "")) as [->|Hne]; [done|].
  destruct c as [|a c]; [done|]. cbn [str_truthy negb].
  destruct (String.eqb_spec (String a c) SERBIA_ALPHA2) as [->|Hrs].
  - by rewrite decide_True.
  - rewrite decide_False by done.
    destruct (decide _); [by rewrite bool_decide_eq_true_2|by rewrite bool_decide_eq_false_2].
Qed.

(** The label tells the class of the input: ["RS"] is given to ["RS"]
    alone, ["EU"] to the members of the set alone, ["UNKNOWN"] to [None]
    and the empty text alone, and ["OTHER"] to the other texts; there is
    no fifth label. *)
Theorem classify_label_determines_input (x : option string) :
  (classify_country_by_alpha2 x = "RS" <-> x = Some "RS") /\
  (classify_country_by_alpha2 x = "EU" <->
   exists c, x = Some c /\ c ∈ EU_COUNTRIES_ALPHA2) /\
  (classify_country_by_alpha2 x = "UNKNOWN" <-> x = None \/ x = Some "") /\
  (classify_country_by_alpha2 x = "OTHER" <->
   exists c, x = Some c /\ c <> "" /\ c <> "RS" /\ c ∉ EU_COUNTRIES_ALPHA2) /\
  classify_country_by_alpha2 x ∈ ["EU"; "RS"; "OTHER"; "UNKNOWN"].
Proof.
  assert (Hrs : "RS" ∉ EU_COUNTRIES_ALPHA2).
  { apply (bool_decide_unpack _). by vm_compute. }
  assert (Hempty : "" ∉ EU_COUNTRIES_ALPHA2).
  { apply (bool_decide_unpack _). by vm_compute. }
  assert (Hlabels : forall l : string,
            l ∈ ["EU"; "RS"; "OTHER"; "UNKNOWN"] <->
            l = "EU" \/ l = "RS" \/ l = "OTHER" \/ l = "UNKNOWN").
  { intros l. rewrite !elem_of_cons, elem_of_nil. tauto. }
  rewrite Hlabels.
  destruct x as [c|].
  2: { cbn. repeat split; try done; try (by intros (c & ? & ?)); auto. }
  rewrite classify_some.
  destruct (decide (c = "")) as [->|Hne].
  { repeat split; try done; auto.
    - by intros (c & [= <-] & ?).
    - by intros (c & [= <-] & ? & ?). }
  destruct (decide (c = "RS")) as [->|Hnrs].
  { repeat split; try done; auto.
    - by intros (c & [= <-] & ?).
    - by intros [|].
    - by intros (c & [= <-] & ? & ? & ?). }
  destruct (decide (c ∈ EU_COUNTRIES_ALPHA2)) as [Hin|Hout].
  - repeat split; try done; auto.
    + by intros [= ->].
    + intros _. by exists c.
    + intros [|[= ->]]; done.
    + by intros (c' & [= <-] & ? & ? & ?).
  - repeat split; try done; auto.
    + by intros [= ->].
    + by intros (c' & [= <-] & ?).
    + intros [|[= ->]]; done.
    + intros _. by exists c.
Qed.


(** ** Sentinels and slices *)

Lemma to_int_not_nil z :
  Z.to_int z <> Decimal.Pos Decimal.Nil /\ Z.to_int z <> Decimal.Neg Decimal.Nil.
Proof.
  split; intros Hz; pose proof (DecimalZ.of_to z) as Hof;
    rewrite Hz in Hof; cbn in Hof; subst z; discriminate.
Qed.

(** The status can be read back from an ["HTTP_<status>"] sentinel:
    two statuses give the same sentinel only when they are equal. *)
Theorem http_sentinel_injective (a b : Z) :
  "HTTP_" ++ str_of_int a = "HTTP_" ++ str_of_int b -> a = b.
Proof.
  intros Heq. apply (inj (String.app "HTTP_")) in Heq.
  unfold str_of_int in Heq.
  apply DecimalZ.to_int_inj.
  assert (Hi : NilZero.int_of_string (NilZero.string_of_int (Z.to_int a))
               = NilZero.int_of_string (NilZero.string_of_int (Z.to_int b)))
    by (by rewrite Heq).
  rewrite !NilZero.isi in Hi by apply to_int_not_nil.
  by injection Hi.
Qed.

Lemma slice_to_idempotent n s : slice_to n (slice_to n s) = slice_to n s.
Proof.
  revert s. induction n as [|n IH]; intros [|c s]; cbn; try done. by rewrite IH.
Qed.

(** ** The BIN and the card number; [main] end to end *)

Section EndToEnd.
Context {codec : Codec}.
Variable remote : request -> reply.

(** A card number and its BIN (its first six characters) are looked up
    alike: the resolver runs the same on both, and [main] differs only
    in the [bin] it echoes, which is its input as given. *)
Theorem card_number_and_bin_run_alike number w :
  get_country_with_bin remote (slice_to 6 number) w
  = get_country_with_bin remote number w /\
  (main remote (slice_to 6 number) w).2 = (main remote number w).2 /\
  (forall r, (main remote number w).1 = Returned r ->
     bin r = number /\
     (main remote (slice_to 6 number) w).1
     = Returned {| bin := slice_to 6 number; country_alpha2 := country_alpha2 r;
                   classification := classification r |}).
Proof.
  assert (Hsame : forall w0, get_country_with_bin remote (slice_to 6 number) w0
                             = get_country_with_bin remote number w0).
  { intros w0. unfold get_country_with_bin, cache_key, url, bin_number.
    by rewrite slice_to_idempotent. }
  split; [apply Hsame|]. rewrite !main_run, Hsame.
  destruct (get_country_with_bin remote number (connected w)) as [[a|e] w'].
  - split; [done|]. by intros r [= <-].
  - by split.
Qed.

Lemma cache_hit_connected number w :
  cache_hit (connected w) number = cache_hit w number.
Proof. done. Qed.

(** [main] does not tell a failure from a country: when the lookup ends
    in a sentinel (a status other than 200, a timeout, a client error),
    the record holds the sentinel as [country_alpha2] and is classified
    ["OTHER"]. *)
Theorem main_reports_sentinel_as_other number w :
  cache_hit w number = false ->
  let '(res, w') := main remote number w in
  (forall r, remote (lookup_request number) = Responded r -> status r <> 200 ->
     res = Returned
             {| bin := number;
                country_alpha2 := Some (if status r =? 429 then "RATE_LIMIT"
                                        else "HTTP_" ++ str_of_int (status r));
                classification := "OTHER" |}) /\
  (request_raises remote number TimeoutError ->
     res = Returned {| bin := number; country_alpha2 := Some "TIMEOUT";
                       classification := "OTHER" |}) /\
  (forall msg, request_raises remote number (ClientError msg) ->
     res = Returned {| bin := number; country_alpha2 := Some ("CLIENT_ERROR: " ++ msg);
                       classification := "OTHER" |}).
Proof.
  intros Hhit. rewrite <- (cache_hit_connected number w) in Hhit.
  assert (Hraise : forall e, request_raises remote number e ->
    get_country_with_bin remote number (connected w) =
      (match e with
       | ClientError msg => Returned (Some ("CLIENT_ERROR: " ++ msg))
       | TimeoutError => Returned (Some "TIMEOUT")
       | _ => Raised e
       end, requested number (connected w))).
  { intros e. unfold request_raises.
    destruct (remote (lookup_request number)) as [r|e'] eqn:Hr.
    - intros [Hs Hj]. by apply (body_raised_run remote number _ r e).
    - intros ->. by apply failed_run. }
  rewrite main_run.
  destruct (get_country_with_bin remote number (connected w)) as [[a|e] w0] eqn:Hrun.
  - split; [|split].
    + intros r Hr Hs. rewrite (status_run remote number _ r Hhit Hr Hs) in Hrun.
      injection Hrun as <- <-. do 2 f_equal; apply classify_long.
      destruct (status r =? 429); rewrite ?length_app_string; cbn; lia.
    + intros Ht. specialize (Hraise _ Ht). cbn in Hraise. by injection Hraise as -> ->.
    + intros msg Hc. specialize (Hraise _ Hc). cbn in Hraise. injection Hraise as -> ->.
      do 2 f_equal; apply classify_long; rewrite length_app_string; cbn; lia.
  - split; [|split].
    + intros r Hr Hs. by rewrite (status_run remote number _ r Hhit Hr Hs) in Hrun.
    + intros Ht. by specialize (Hraise _ Ht).
    + intros msg Hc. by specialize (Hraise _ Hc).
Qed.
End EndToEnd.

Section Remembering.
Context {codec : Codec} {laws : CodecLaws}.
Variable remote : request -> reply.

(** [main] twice.  After a first [main] resolved code [c] for an
    uncached BIN, a second [main] for it answers [c] from the cache
    without a request, whatever the remote service would say, and both
    clients are released. *)
Theorem main_second_call_from_cache (remote' : request -> reply) number w c :
  cache_hit w number = false ->
  resolved_code remote number = Some c ->
  let w1 := (main remote number w).2 in
  let '(res2, w2) := main remote' number w1 in
  res2 = Returned {| bin := number; country_alpha2 := Some c;
                     classification := classify_country_by_alpha2 (Some c) |} /\
  http_requests (events_since w1 w2) = [] /\
  cache w2 = cache w1 /\
  open_conns w2 = open_conns w.
Proof.
  intros Hhit Hres. cbn zeta.
  rewrite <- (cache_hit_connected number w) in Hhit.
  rewrite (main_run remote), (resolved_run remote number _ c Hhit Hres). cbn [snd].
  set (w1 := released _).
  assert (Hk : cache (connected w1) !! cache_key number
               = Some {| value := str_encode c; ttl := Some CACHE_TTL |})
    by apply lookup_insert_eq.
  assert (Hv : value {| value := str_encode c; ttl := Some CACHE_TTL |} <> [])
    by (apply encode_not_empty; by eapply resolved_code_truthy).
  rewrite (main_run remote'), (hit_run remote' number _ _ Hk Hv). cbn [value].
  rewrite decode_encode.
  rewrite (events_since_app w1 _
             [EvConnect REDIS_URL; EvCacheGet (cache_key number); EvClose]).
  - by repeat split.
  - unfold released, asked, connected, record, redis_aclose, redis_from_url. cbn.
    by rewrite <- !app_assoc.
Qed.

(** The resolver keeps the cache free of empty values: when every
    cached value is non-empty before a call, so it is after, since only
    a truthy code is ever stored.  (An empty value would read as a
    miss.) *)
Theorem resolver_keeps_values_nonempty number w :
  (forall k e, cache w !! k = Some e -> value e <> []) ->
  forall k e, cache (get_country_with_bin remote number w).2 !! k = Some e ->
              value e <> [].
Proof.
  intros Hinv k e. rewrite run_world.
  destruct (cache_hit w number); [apply Hinv|].
  destruct (resolved_code remote number) as [code|] eqn:Hres; [|apply Hinv].
  unfold stored, redis_set. cbn. rewrite lookup_insert.
  case_decide; [|apply Hinv].
  intros [= <-]. cbn. apply encode_not_empty. by eapply resolved_code_truthy.
Qed.
End Remembering.

(** ** The further properties at concrete runs *)

(** After a rate-limited lookup the BIN is still unknown to the cache,
    and the next lookup asks the service again. *)
Lemma unresolved_miss_is_retried_witness :
  let w1 := (@get_country_with_bin latin1_codec (remote_status 429) "411111" empty_world).2 in
  cache_hit w1 "411111" = false /\
  http_requests
    (events_since w1 (@get_country_with_bin latin1_codec (remote_code "US") "411111" w1).2)
  = [lookup_request "411111"].
Proof.
  apply (@unresolved_miss_is_retried latin1_codec (remote_status 429) (remote_code "US")
           "411111" empty_world).
  - reflexivity.
  - reflexivity.
Defined.

(** A cache that holds an empty value for BIN 411111 answers as one
    that does not hold the key. *)
Lemma empty_cached_value_is_a_miss_witness :
  (@get_country_with_bin latin1_codec (remote_code "DE") "411111" stale_world).1
  = (@get_country_with_bin latin1_codec (remote_code "DE") "411111"
       {| cache := delete "bin_country:411111" (cache stale_world);
          open_conns := 0; log := [] |}).1 /\
  http_requests
    (events_since stale_world
       (@get_country_with_bin latin1_codec (remote_code "DE") "411111" stale_world).2)
  = [lookup_request "411111"].
Proof.
  apply (@empty_cached_value_is_a_miss latin1_codec (remote_code "DE") "411111" stale_world
           {| value := []; ttl := None |}).
  - reflexivity.
  - reflexivity.
Defined.

(** A service that knows no BIN: [None], and nothing written. *)
Lemma answer_without_code_gives_none_witness :
  let '(res, w') :=
    @get_country_with_bin latin1_codec remote_empty_list "411111" empty_world in
  res = Returned None /\
  cache w' = ∅ /\
  cache_writes (events_since empty_world w') = [].
Proof.
  apply (@answer_without_code_gives_none latin1_codec remote_empty_list "411111" empty_world
           {| status := 200; json := Returned (JsonList []) |} (JsonList []));
    try reflexivity.
  intros items. discriminate.
Defined.

(** A list of something else than objects. *)
Lemma non_object_element_raises_witness :
  @get_country_with_bin latin1_codec remote_odd_list "411111" empty_world
  = (Raised AttributeError, requested "411111" empty_world).
Proof.
  apply (@non_object_element_raises latin1_codec remote_odd_list "411111" empty_world
           {| status := 200; json := Returned (JsonList [NotObject]) |} []);
    reflexivity.
Defined.

(** A 200 response whose body is no JSON. *)
Lemma uncaught_exception_propagates_witness :
  let '(res, w') :=
    @get_country_with_bin latin1_codec remote_bad_json "411111" empty_world in
  res = Raised (OtherError "JSONDecodeError") /\
  events_since empty_world w'
  = [EvCacheGet (cache_key "411111"); EvHttpGet (lookup_request "411111")] /\
  cache w' = ∅.
Proof.
  apply (@uncaught_exception_propagates latin1_codec remote_bad_json "411111" empty_world
           (OtherError "JSONDecodeError")).
  - reflexivity.
  - split; reflexivity.
  - discriminate.
  - intros msg. discriminate.
Defined.

(** ["HTTP_503"] at status 503 has the origin the theorem names. *)
Lemma resolver_outcomes_witness :
  (@get_country_with_bin latin1_codec (remote_status 503) "411111" empty_world).1
  = Returned (Some "HTTP_503") /\
  exists r, remote_status 503 (lookup_request "411111") = Responded r /\
            status r <> 200 /\ status r <> 429 /\
            "HTTP_503" = "HTTP_" ++ str_of_int (status r).
Proof.
  split; [reflexivity|].
  destruct (@resolver_outcomes latin1_codec (remote_status 503) "411111" empty_world
              "HTTP_503" eq_refl)
    as [(e & Hk & _)|[_ [Hres|[(r & _ & _ & Hs)|[Hhttp|[[_ Hs]|(msg & _ & Hs)]]]]]];
    try discriminate.
  exact Hhttp.
Defined.


(** The same sentinel twice names the same status. *)
Lemma http_sentinel_injective_witness :
  "HTTP_" ++ str_of_int 503 = "HTTP_503" /\ 503 = 503.
Proof. split; [reflexivity|]. apply (http_sentinel_injective 503 503). reflexivity. Defined.

(** [main] at a service that is down with 503. *)
Lemma main_reports_sentinel_as_other_witness :
  (@main latin1_codec (remote_status 503) "4111111111111111" empty_world).1
  = Returned {| bin := "4111111111111111"; country_alpha2 := Some "HTTP_503";
                classification := "OTHER" |}.
Proof.
  pose proof (@main_reports_sentinel_as_other latin1_codec (remote_status 503)
                "4111111111111111" empty_world eq_refl) as Hm.
  destruct (main _ _ _) as [res w'].
  destruct Hm as [Hs _].
  apply (Hs {| status := 503; json := Returned NotList |}); [reflexivity|discriminate].
Defined.

(** [main] twice for BIN 411111: the second answers ["US"], classified
    ["OTHER"], with the service down. *)
Lemma main_second_call_from_cache_witness :
  let w1 := (@main latin1_codec (remote_code "US") "411111" empty_world).2 in
  let '(res2, w2) := @main latin1_codec (remote_failing TimeoutError) "411111" w1 in
  res2 = Returned {| bin := "411111"; country_alpha2 := Some "US";
                     classification := "OTHER" |} /\
  http_requests (events_since w1 w2) = [] /\
  cache w2 = cache w1 /\
  open_conns w2 = 0%nat.
Proof.
  apply (@main_second_call_from_cache latin1_codec latin1_laws (remote_code "US")
           (remote_failing TimeoutError) "411111" empty_world "US").
  - reflexivity.
  - reflexivity.
Defined.

(** From an empty cache, a resolved lookup leaves no empty value: the
    entry it wrote for BIN 411111 is not empty. *)
Lemma resolver_keeps_values_nonempty_witness :
  (forall k e, cache empty_world !! k = Some e -> value e <> []) /\
  value {| value := list_byte_of_string "US"; ttl := Some CACHE_TTL |} <> [].
Proof.
  assert (Hinv : forall k e, cache empty_world !! k = Some e -> value e <> []).
  { intros k e Hk. cbn in Hk. rewrite lookup_empty in Hk. discriminate. }
  split; [exact Hinv|].
  apply (@resolver_keeps_values_nonempty latin1_codec latin1_laws (remote_code "US")
           "411111" empty_world Hinv "bin_country:411111").
  reflexivity.
Defined.
